(** * A shallow embedding of [sgp30.py] (driver for the Sensirion SGP30 gas sensor)

    The module targets Python 2 ([from __future__ import print_function],
    the [smbus] binding), so [/] on two ints is floor division, and
    [struct.pack] returns a [str], whose items are one-character strings,
    while a [bytearray] yields ints.
    Python [assert] statements raise [AssertionError] with their message;
    [struct.pack] / [struct.unpack_from] raise [struct.error]. *)

From Stdlib Require Import ZArith List String Bool Lia.
Import ListNotations.
Open Scope Z_scope.

(** ** Exceptions and a small error monad *)

Inductive PyError : Type :=
  | AssertionError (msg : string)
  | StructError
  | TypeError
  | KeyError
  | IndexError
  | TransportError.

Inductive result (A : Type) : Type :=
  | Ok (a : A)
  | Err (e : PyError).
Arguments Ok {A} a.
Arguments Err {A} e.

Definition bind {A B} (m : result A) (k : A -> result B) : result B :=
  match m with Ok a => k a | Err e => Err e end.

Notation "x <- m ;; k" := (bind m (fun x => k))
  (at level 61, m at next level, right associativity).

(** [assert cond, msg] *)
Definition py_assert (cond : bool) (msg : string) : result unit :=
  if cond then Ok tt else Err (AssertionError msg).

(** ** Module constants *)

Definition _SGP30_CRC_INIT : Z := 255.         (* 0xff *)
Definition _SGP30_CRC_POLYNOMIAL : Z := 49.    (* 0x31 *)
Definition _SGP30_FEATURE_SET_BITMASK : Z := 224.  (* 0b0000000011100000 *)

(** ** [SGP30._crc]

<<
    crc = _SGP30_CRC_INIT
    for byte in data:
        crc ^= byte
        for _ in range(8):
            if crc & 0x80:
                crc = (crc << 1) ^ _SGP30_CRC_POLYNOMIAL
            else:
                crc <<= 1
    return crc & 0xFF
>>
    Python integers are unbounded, so the accumulator is not truncated
    inside the loop. *)

Definition crc_shift (crc : Z) : Z :=
  if negb (Z.land crc 128 =? 0)
  then Z.lxor (Z.shiftl crc 1) _SGP30_CRC_POLYNOMIAL
  else Z.shiftl crc 1.

Fixpoint crc_bits (n : nat) (crc : Z) : Z :=
  match n with
  | O => crc
  | S n' => crc_bits n' (crc_shift crc)
  end.

Fixpoint crc_loop (crc : Z) (data : list Z) : Z :=
  match data with
  | [] => crc
  | byte :: rest => crc_loop (crc_bits 8 (Z.lxor crc byte)) rest
  end.

Definition _crc (data : list Z) : Z :=
  Z.land (crc_loop _SGP30_CRC_INIT data) 255.

(** The algorithm as the specification words it: an 8-bit accumulator,
    masked to 8 bits after every shift. *)

Definition crc_spec_shift (acc : Z) : Z :=
  if Z.testbit acc 7
  then Z.land (Z.lxor (Z.shiftl acc 1) 49) 255
  else Z.land (Z.shiftl acc 1) 255.

Fixpoint crc_spec_bits (n : nat) (acc : Z) : Z :=
  match n with
  | O => acc
  | S n' => crc_spec_bits n' (crc_spec_shift acc)
  end.

Fixpoint crc_spec_loop (acc : Z) (data : list Z) : Z :=
  match data with
  | [] => acc
  | byte :: rest => crc_spec_loop (crc_spec_bits 8 (Z.lxor acc byte)) rest
  end.

Definition crc_spec (data : list Z) : Z := crc_spec_loop 255 data.


(** ** Word codec *)

(** Python 2 byte strings: a [str] (what [struct.pack] returns) or a
    [bytearray] (what [__read_bytes] returns), each holding byte values. *)
Inductive PyBytes : Type :=
  | PyStr (chars : list Z)
  | PyBytearray (bs : list Z).

Definition py_bytes_values (b : PyBytes) : list Z :=
  match b with PyStr cs => cs | PyBytearray bs => bs end.

(** [struct.pack('>H', word)]: a two-character [str], big-endian;
    [struct.error] outside [0 .. 65535]. *)
Definition struct_pack_H (word : Z) : result PyBytes :=
  if (0 <=? word) && (word <=? 65535)
  then Ok (PyStr [Z.shiftr word 8; Z.land word 255])
  else Err StructError.

(** [cls._crc(data)] on a Python 2 byte string: iterating a [bytearray]
    gives ints and the loop is [_crc]; iterating a non-empty [str] gives a
    one-character string first, and [crc ^= byte] (int XOR str) raises
    [TypeError]. *)
Definition _crc_py (data : PyBytes) : result Z :=
  match data with
  | PyBytearray bs => Ok (_crc bs)
  | PyStr [] => Ok (_crc [])
  | PyStr (_ :: _) => Err TypeError
  end.

(** [SGP30._bytes_for_checksummed_words]; the dead [byte_offset] counter is
    left out.  [res.extend(word_bytes)] copies the characters' byte values
    into the [bytearray]. *)
Fixpoint bytes_for_words_loop (res : list Z) (words : list Z) : result (list Z) :=
  match words with
  | [] => Ok res
  | word :: rest =>
      word_bytes <- struct_pack_H word ;;
      let res' := res ++ py_bytes_values word_bytes in
      c <- _crc_py word_bytes ;;
      bytes_for_words_loop (res' ++ [c]) rest
  end.

Definition _bytes_for_checksummed_words (words : list Z) : result (list Z) :=
  bytes_for_words_loop [] words.

(** [SGP30._read_checksummed_word]:
<<
    word_bytes = data[offset:offset + 2]
    word, checksum = struct.unpack_from('>HB', data, offset)
    assert checksum == cls._crc(word_bytes), 'Bad checksum!'
    return word
>>
    [unpack_from] needs three bytes from [offset] on, else [struct.error]. *)
Definition _read_checksummed_word (data : list Z) (offset : nat) : result Z :=
  let word_bytes := firstn 2 (skipn offset data) in
  match skipn offset data with
  | b0 :: b1 :: checksum :: _ =>
      let word := b0 * 256 + b1 in
      _ <- py_assert (checksum =? _crc word_bytes) "Bad checksum!" ;;
      Ok word
  | _ => Err StructError
  end.

(** [SGP30._read_checksummed_words]: [for i in range(count)], reading the
    triplet at offset [3 * i] and appending to [res]. *)
Fixpoint read_words_loop (data : list Z) (i : nat) (n : nat) (res : list Z)
  : result (list Z) :=
  match n with
  | O => Ok res
  | S n' =>
      word <- _read_checksummed_word data ((2 + 1) * i) ;;
      read_words_loop data (S i) n' (res ++ [word])
  end.

Definition _read_checksummed_words (data : list Z) (count : nat) : result (list Z) :=
  read_words_loop data 0 count [].

(** ** [AirQuality] *)

Record AirQuality : Type := mkAirQuality { co2_ppm : Z; voc_ppb : Z }.

Definition is_probably_valid (a : AirQuality) : bool :=
  negb (co2_ppm a =? 400) || negb (voc_ppb a =? 0).

(** ** The command table [_SGP30_CMDS]

    Lengths are in bytes, as in the source: three bytes per checksummed
    word. *)

Record SGP30Command : Type := mkSGP30Command {
  opcode_bytes : list Z;
  required_feature_set : option Z;
  parameter_length : nat;
  response_length : nat;
  response_time_ms : Z
}.

Definition _SGP30_CMDS : list (string * SGP30Command) := [
  ("get_serial_number"%string,       mkSGP30Command [54; 130] None 0 9 1);   (* 0x36 0x82 *)
  ("get_feature_set_version"%string, mkSGP30Command [32; 47] None 0 3 2);    (* 0x20 0x2f *)
  ("init_air_quality"%string,    mkSGP30Command [32; 3] (Some 32) 0 0 10);   (* 0x20 0x03 *)
  ("measure_air_quality"%string, mkSGP30Command [32; 8] (Some 32) 0 6 12);   (* 0x20 0x08 *)
  ("get_baseline"%string,        mkSGP30Command [32; 21] (Some 32) 0 6 10);  (* 0x20 0x15 *)
  ("set_baseline"%string,        mkSGP30Command [32; 30] (Some 32) 6 0 10);  (* 0x20 0x1e *)
  ("set_humidity"%string,        mkSGP30Command [32; 97] (Some 32) 3 0 10);  (* 0x20 0x61 *)
  ("measure_raw_signals"%string, mkSGP30Command [32; 80] (Some 32) 0 6 25)   (* 0x20 0x50 *)
].

(** [_SGP30_CMDS[name]]: [None] is Python's [KeyError]. *)
Fixpoint lookup_cmd (name : string) (tbl : list (string * SGP30Command))
  : option SGP30Command :=
  match tbl with
  | [] => None
  | (k, c) :: rest => if String.eqb k name then Some c else lookup_cmd name rest
  end.

(** ** Bus effects

    The [smbus] transport is outside this repository; a session talks to
    it through a [Transport] record (a real bus or a test double).  Each
    call receives whether the bus handle is open.  The monad [M] threads
    the trace of bus events issued so far and Python's exceptions.  The
    bus lock only matters for concurrent callers and is not modelled. *)

Inductive BusEvent : Type :=
  | EvWrite (address cmd_byte : Z) (arg_bytes : list Z)
  | EvSleep (ms : Z)
  | EvRead (address : Z) (length : nat).

Record Transport : Type := mkTransport {
  tr_open : Z -> result unit;     (* [SMBus.open(bus_number)] *)
  tr_write : bool -> Z -> Z -> list Z -> result unit;
  tr_read : bool -> Z -> nat -> result (list Z)
}.

Definition M (A : Type) : Type := list BusEvent -> result A * list BusEvent.

Definition ret {A} (a : A) : M A := fun t => (Ok a, t).
Definition throw {A} (e : PyError) : M A := fun t => (Err e, t).
Definition lift {A} (r : result A) : M A := fun t => (r, t).
Definition emit (ev : BusEvent) : M unit := fun t => (Ok tt, t ++ [ev]).
Definition bindM {A B} (m : M A) (k : A -> M B) : M B :=
  fun t => match m t with
           | (Ok a, t') => k a t'
           | (Err e, t') => (Err e, t')
           end.

Notation "'let!' x ':=' m 'in' k" := (bindM m (fun x => k))
  (at level 200, x name, m at level 100, k at level 200).

(** ** The [SGP30] object *)

Record SGP30 : Type := mkSGP30 {
  i2c_bus_number : Z;
  i2c_address : Z;
  _raw_feature_set : option Z;
  chip_version : option Z;
  serial_number : option (list Z);
  bus_open : bool             (* state of the owned [SMBus] handle *)
}.

(** [SGP30(i2c_bus_number=1, i2c_address=0x58)]: [SMBus()] is created
    unopened. *)
Definition new_SGP30 (bus_number address : Z) : SGP30 :=
  mkSGP30 bus_number address None None None false.

Definition _has_feature_set (s : SGP30) (required_feature_set : option Z) : bool :=
  match required_feature_set with
  | None => true
  | Some r =>
      (* [None == int] is [False] in Python *)
      match chip_version s with
      | Some c => c =? Z.land r _SGP30_FEATURE_SET_BITMASK
      | None => false
      end
  end.

(** [__write_bytes] (called under the lock). *)
Definition __write_bytes (s : SGP30) (tr : Transport) (raw_bytes : list Z) : M unit :=
  match raw_bytes with
  | [] => throw (AssertionError "")
  | cmd_byte :: arg_bytes =>
      let! _ := emit (EvWrite (i2c_address s) cmd_byte arg_bytes) in
      lift (tr_write tr (bus_open s) (i2c_address s) cmd_byte arg_bytes)
  end.

(** [__read_bytes] (called under the lock). *)
Definition __read_bytes (s : SGP30) (tr : Transport) (length : nat) : M (list Z) :=
  let! _ := emit (EvRead (i2c_address s) length) in
  lift (tr_read tr (bus_open s) (i2c_address s) length).

(** [_run_command(cmd, param_bytes=None)]; [param_bytes = None] is [None]. *)
Definition _run_command (s : SGP30) (tr : Transport) (cmd : SGP30Command)
  (param_bytes : option (list Z)) : M (option (list Z)) :=
  let! _ := lift (py_assert (_has_feature_set s (required_feature_set cmd))
                    "Unsupported chip version for this command") in
  let! bytes_to_write :=
    (if (0 <? parameter_length cmd)%nat then
       match param_bytes with
       | None => throw TypeError                      (* len(None) *)
       | Some pb =>
           let! _ := lift (py_assert (Nat.eqb (List.length pb) (parameter_length cmd))
                             "Invalid number of parameter bytes for command") in
           ret (opcode_bytes cmd ++ pb)
       end
     else ret (opcode_bytes cmd)) in
  let! _ := __write_bytes s tr bytes_to_write in
  let! _ := emit (EvSleep (response_time_ms cmd)) in
  if (0 <? response_length cmd)%nat then
    let! raw := __read_bytes s tr (response_length cmd) in
    ret (Some raw)
  else ret None.

Definition get_cmd (cmd_name : string) : M SGP30Command :=
  match lookup_cmd cmd_name _SGP30_CMDS with
  | Some c => ret c
  | None => throw KeyError
  end.

Definition _run_word_getter (s : SGP30) (tr : Transport) (cmd_name : string)
  : M (list Z) :=
  let! cmd := get_cmd cmd_name in
  let! _ := lift (py_assert (Nat.eqb (parameter_length cmd) 0)
    "This method only understands commands that take no parameters") in
  let! _ := lift (py_assert (Nat.eqb (response_length cmd mod 3) 0)
    "This method only understands commands whose response is a set of (2-byte word + 1-byte checksum) pairs (i.e., the number of response bytes must be divisible by three)") in
  let word_count := (response_length cmd / 3)%nat in
  let! raw_bytes := _run_command s tr cmd None in
  match raw_bytes with
  | Some data => lift (_read_checksummed_words data word_count)
  | None => (* [range(0)] never touches [None]; otherwise [None[0:2]] fails *)
      if Nat.eqb word_count 0 then ret [] else throw TypeError
  end.


(** [AirQuality( *words)] *)
Definition air_quality_of (words : list Z) : M AirQuality :=
  match words with
  | [a; b] => ret (mkAirQuality a b)
  | _ => throw TypeError
  end.

Definition measure_air_quality (s : SGP30) (tr : Transport) : M AirQuality :=
  let! ws := _run_word_getter s tr "measure_air_quality" in air_quality_of ws.





Definition _get_serial_number (s : SGP30) (tr : Transport) : M (list Z) :=
  _run_word_getter s tr "get_serial_number".

Definition _get_feature_set_version (s : SGP30) (tr : Transport) : M Z :=
  let! ws := _run_word_getter s tr "get_feature_set_version" in
  match ws with w :: _ => ret w | [] => throw IndexError end.

Definition _init_air_quality (s : SGP30) (tr : Transport) : M (option (list Z)) :=
  let! cmd := get_cmd "init_air_quality" in _run_command s tr cmd None.

(** ** [open] and [close]

    Python mutates the object attribute by attribute, so an exception in
    the middle of [open] leaves the attributes assigned so far.  [open]
    returns the resulting object, the outcome and the bus trace.  Its first
    step, [self._bus.open(self.i2c_bus_number)], goes to the transport; when
    it raises, the handle is not open ([smbus] keeps the failed [open(2)]'s
    [-1] as its descriptor) and nothing else has happened. *)

Definition with_bus_open (s : SGP30) (b : bool) : SGP30 :=
  mkSGP30 (i2c_bus_number s) (i2c_address s) (_raw_feature_set s)
          (chip_version s) (serial_number s) b.

Definition with_serial_number (s : SGP30) (sn : list Z) : SGP30 :=
  mkSGP30 (i2c_bus_number s) (i2c_address s) (_raw_feature_set s)
          (chip_version s) (Some sn) (bus_open s).

Definition with_feature_set (s : SGP30) (raw : Z) : SGP30 :=
  mkSGP30 (i2c_bus_number s) (i2c_address s) (Some raw)
          (Some (Z.land raw _SGP30_FEATURE_SET_BITMASK)) (serial_number s) (bus_open s).

Definition open (s : SGP30) (tr : Transport) : SGP30 * result unit * list BusEvent :=
  match tr_open tr (i2c_bus_number s) with
  | Err e => (with_bus_open s false, Err e, [])
  | Ok _ =>
  let s1 := with_bus_open s true in
  match _get_serial_number s1 tr [] with
  | (Err e, t1) => (s1, Err e, t1)
  | (Ok sn, t1) =>
      let s2 := with_serial_number s1 sn in
      match _get_feature_set_version s2 tr t1 with
      | (Err e, t2) => (s2, Err e, t2)
      | (Ok raw, t2) =>
          let s3 := with_feature_set s2 raw in
          match _init_air_quality s3 tr t2 with
          | (Err e, t3) => (s3, Err e, t3)
          | (Ok _, t3) => (s3, Ok tt, t3)
          end
      end
  end
  end.

Definition close (s : SGP30) : SGP30 := with_bus_open s false.


(** Flipping bit [b] of the byte at position [pos], as a test would do
    with [data[pos] ^= 1 << b]. *)
Definition flip_bit (data : list Z) (pos : nat) (b : Z) : list Z :=
  firstn pos data ++ [Z.lxor (nth pos data 0) (Z.shiftl 1 b)] ++ skipn (S pos) data.

(** ** Triplets *)

(** A checksummed triplet as read by [_read_checksummed_word]. *)
Definition triplet_bytes (t : Z * Z * Z) : list Z :=
  match t with (b0, b1, c) => [b0; b1; c] end.

Definition triplet_valid (t : Z * Z * Z) : Prop :=
  match t with (b0, b1, c) => c = _crc [b0; b1] end.

Definition triplet_word (t : Z * Z * Z) : Z :=
  match t with (b0, b1, _) => b0 * 256 + b1 end.

Definition triplet_of_word (w : Z) : Z * Z * Z :=
  (Z.shiftr w 8, Z.land w 255, _crc [Z.shiftr w 8; Z.land w 255]).

Definition word_in_range (w : Z) : Prop := 0 <= w <= 65535.

(** ** A transport test double

    It opens every bus and accepts every write, whatever the state of the
    handle, and answers
    a read of [n] bytes with correctly checksummed words: a serial number
    [1 2 3] for 9 bytes, the feature set [0x0020] for 3 bytes, and the
    pair [450 12] otherwise.  A device sends a word as its two big-endian
    bytes followed by their CRC ([encoded]). *)

Definition encoded (words : list Z) : list Z :=
  flat_map triplet_bytes (map triplet_of_word words).

Definition test_transport : Transport :=
  mkTransport
    (fun _ => Ok tt)
    (fun _ _ _ _ => Ok tt)
    (fun _ _ n => Ok (match n with
                      | 9%nat => encoded [1; 2; 3]
                      | 3%nat => encoded [32]
                      | _ => encoded [450; 12]
                      end)).


(** The command table with lengths counted in checksummed words and the
    opcode as a 16-bit value. *)
Definition cmd_row (c : SGP30Command) : Z * bool * nat * nat * Z :=
  (match opcode_bytes c with [hi; lo] => hi * 256 + lo | _ => -1 end,
   match required_feature_set c with Some _ => true | None => false end,
   (parameter_length c / 3)%nat,
   (response_length c / 3)%nat,
   response_time_ms c).

(** ** The [with] statement: [__enter__] / [__exit__]

<<
    def __enter__(self):
        self.open()
        return self

    def __exit__(self, exception_type, exception_value, traceback):
        self.close()
>>
    [__exit__] runs only once [__enter__] has returned; it returns [None],
    so an exception of the body propagates after [close]. *)
Definition with_SGP30 {A} (s : SGP30) (tr : Transport) (body : SGP30 -> M A)
  : SGP30 * result A * list BusEvent :=
  match open s tr with
  | (s1, Err e, t) => (s1, Err e, t)
  | (s1, Ok _, t) =>
      let (r, t') := body s1 t in (close s1, r, t')
  end.

(** The exception [_bytes_for_checksummed_words] raises on a list whose
    first word is [w]. *)
Definition first_word_error (w : Z) : PyError :=
  if (0 <=? w) && (w <=? 65535) then TypeError else StructError.

(** A byte, as [struct] and the bus carry it. *)
Definition is_byte (b : Z) : Prop := 0 <= b < 256.

(** The bus events of [open] up to the feature-set reply. *)
Definition open_prefix_events (a : Z) : list BusEvent :=
  [EvWrite a 54 [130]; EvSleep 1; EvRead a 9; EvWrite a 32 [47]; EvSleep 2; EvRead a 3].

(** The object after [open] has read serial number [sn] and feature set [raw]. *)
Definition opened_state (s : SGP30) (sn : list Z) (raw : Z) : SGP30 :=
  mkSGP30 (i2c_bus_number s) (i2c_address s) (Some raw)
          (Some (Z.land raw _SGP30_FEATURE_SET_BITMASK)) (Some sn) true.

(** A device answering with serial number [1; 2; 3] and feature set [raw]. *)
Definition transport_with_feature_set (raw : Z) : Transport :=
  mkTransport
    (fun _ => Ok tt)
    (fun _ _ _ _ => Ok tt)
    (fun _ _ n => Ok (match n with
                      | 9%nat => encoded [1; 2; 3]
                      | 3%nat => encoded [raw]
                      | _ => encoded [450; 12]
                      end)).

(** * Lemmas *)

(** ** Bit-level facts about the two accumulators *)

Lemma testbit_255 (n : Z) : 0 <= n -> Z.testbit 255 n = (n <? 8).
Proof.
  intros Hn. change 255 with (Z.ones 8). rewrite Z.testbit_ones by lia.
  destruct (Z.leb_spec 0 n); [reflexivity | lia].
Qed.

Lemma testbit_128 (n : Z) : 0 <= n -> Z.testbit 128 n = (n =? 7).
Proof.
  intros Hn. change 128 with (2 ^ 7). rewrite Z.pow2_bits_eqb by lia.
  apply Z.eqb_sym.
Qed.

Lemma land_128_zero (a : Z) : (Z.land a 128 =? 0) = negb (Z.testbit a 7).
Proof.
  destruct (Z.testbit a 7) eqn:E7; simpl.
  - apply Z.eqb_neq; intros H0.
    assert (Hb : Z.testbit (Z.land a 128) 7 = false) by (rewrite H0; reflexivity).
    rewrite Z.land_spec, E7 in Hb. discriminate Hb.
  - apply Z.eqb_eq, Z.bits_inj'; intros n Hn.
    rewrite Z.land_spec, testbit_128, Z.bits_0 by exact Hn.
    destruct (Z.eqb_spec n 7) as [->|_]; [rewrite E7|apply andb_false_r]; reflexivity.
Qed.

Lemma testbit_low8 (x n : Z) : n < 8 -> Z.testbit (Z.land x 255) n = Z.testbit x n.
Proof.
  intros H. destruct (Z.lt_ge_cases n 0) as [Hneg|Hpos].
  - rewrite !Z.testbit_neg_r by exact Hneg. reflexivity.
  - rewrite Z.land_spec, testbit_255 by exact Hpos.
    replace (n <? 8) with true by (symmetry; apply Z.ltb_lt; exact H).
    apply andb_true_r.
Qed.

(** One shift step only looks at the low eight bits of the accumulator. *)
Lemma crc_shift_low8 (x : Z) :
  Z.land (crc_shift x) 255 = Z.land (crc_shift (Z.land x 255)) 255.
Proof.
  unfold crc_shift. rewrite !land_128_zero, testbit_low8 by lia.
  destruct (Z.testbit x 7); cbn [negb]; apply Z.bits_inj'; intros n Hn;
    rewrite !Z.land_spec, testbit_255 by exact Hn;
    (destruct (Z.ltb_spec n 8) as [Hlt|Hge]; [|rewrite !andb_false_r; reflexivity]);
    rewrite ?Z.lxor_spec, !Z.shiftl_spec by exact Hn;
    rewrite testbit_low8 by lia; reflexivity.
Qed.

Lemma crc_spec_shift_eq (a : Z) : crc_spec_shift a = Z.land (crc_shift a) 255.
Proof.
  unfold crc_spec_shift, crc_shift. rewrite land_128_zero.
  destruct (Z.testbit a 7); reflexivity.
Qed.

Lemma crc_bits_low8 (n : nat) (x : Z) :
  Z.land (crc_bits n x) 255 = crc_spec_bits n (Z.land x 255).
Proof.
  revert x; induction n as [|n IH]; intros x; simpl; [reflexivity|].
  rewrite crc_spec_shift_eq, <- crc_shift_low8. apply IH.
Qed.

Lemma lxor_low8 (x b : Z) :
  Z.land (Z.lxor x b) 255 = Z.land (Z.lxor (Z.land x 255) b) 255.
Proof.
  apply Z.bits_inj'; intros n Hn.
  rewrite !Z.land_spec, !Z.lxor_spec, Z.land_spec, testbit_255 by exact Hn.
  destruct (n <? 8); rewrite ?andb_true_r, ?andb_false_r; reflexivity.
Qed.

Lemma crc_spec_bits_low8 (n : nat) (y : Z) :
  crc_spec_bits (S n) y = crc_spec_bits (S n) (Z.land y 255).
Proof.
  simpl. rewrite !crc_spec_shift_eq, <- crc_shift_low8. reflexivity.
Qed.

Lemma crc_loop_low8 (acc : Z) (data : list Z) :
  Z.land (crc_loop acc data) 255 = crc_spec_loop (Z.land acc 255) data.
Proof.
  revert acc; induction data as [|b rest IH]; intros acc; cbn [crc_loop crc_spec_loop];
    [reflexivity|].
  rewrite IH, crc_bits_low8, (crc_spec_bits_low8 7 (Z.lxor (Z.land acc 255) b)),
    <- lxor_low8. reflexivity.
Qed.

(** ** Word codec *)

Lemma triplet_word_of_word (w : Z) :
  word_in_range w -> triplet_word (triplet_of_word w) = w.
Proof.
  unfold word_in_range; intros H; simpl.
  rewrite Z.shiftr_div_pow2 by lia. change 255 with (Z.ones 8).
  rewrite Z.land_ones by lia. change (2 ^ 8) with 256.
  rewrite Z.mul_comm. symmetry. apply Z.div_mod. lia.
Qed.

Lemma read_word_at (data : list Z) (off : nat) (b0 b1 c : Z) (tail : list Z) :
  skipn off data = b0 :: b1 :: c :: tail ->
  _read_checksummed_word data off =
  if c =? _crc [b0; b1] then Ok (b0 * 256 + b1) else Err (AssertionError "Bad checksum!").
Proof.
  intros H. unfold _read_checksummed_word. rewrite H. simpl.
  unfold py_assert. destruct (c =? _crc [b0; b1]); reflexivity.
Qed.

Lemma skipn_3_succ (data : list Z) (i : nat) (b0 b1 c : Z) (tail : list Z) :
  skipn (3 * i) data = b0 :: b1 :: c :: tail -> skipn (3 * S i) data = tail.
Proof.
  intros H. replace (3 * S i)%nat with (3 + 3 * i)%nat by lia.
  rewrite <- skipn_skipn, H. reflexivity.
Qed.

(** Valid triplets are decoded one after the other. *)
Lemma read_loop_prefix (trips : list (Z * Z * Z)) :
  Forall triplet_valid trips ->
  forall (data : list Z) (i n : nat) (res tail : list Z),
  skipn (3 * i) data = flat_map triplet_bytes trips ++ tail ->
  read_words_loop data i (List.length trips + n) res =
  read_words_loop data (i + List.length trips) n (res ++ map triplet_word trips).
Proof.
  induction 1 as [|[[b0 b1] c] ts Hv Hts IH]; intros data i n res tail H.
  - rewrite Nat.add_0_r, app_nil_r. reflexivity.
  - cbn [List.length Nat.add read_words_loop].
    simpl in H, Hv.
    rewrite (read_word_at data (3 * i) b0 b1 c (flat_map triplet_bytes ts ++ tail) H).
    rewrite Hv, Z.eqb_refl. simpl.
    rewrite (IH data (S i) n (res ++ [b0 * 256 + b1]) tail (skipn_3_succ _ _ _ _ _ _ H)).
    rewrite <- app_assoc. f_equal. lia.
Qed.

Lemma triplet_of_word_valid (w : Z) : triplet_valid (triplet_of_word w).
Proof. reflexivity. Qed.

Lemma map_triplet_word_of_words (W : list Z) :
  Forall word_in_range W -> map triplet_word (map triplet_of_word W) = W.
Proof.
  induction 1 as [|w rest Hw _ IH]; [reflexivity|].
  cbn [map]. rewrite IH, triplet_word_of_word by exact Hw. reflexivity.
Qed.

Lemma triplets_of_words_valid (W : list Z) :
  Forall triplet_valid (map triplet_of_word W).
Proof.
  induction W as [|w rest IH]; constructor; [apply triplet_of_word_valid | exact IH].
Qed.

Lemma length_flat_triplets (ts : list (Z * Z * Z)) :
  List.length (flat_map triplet_bytes ts) = (3 * List.length ts)%nat.
Proof.
  induction ts as [|[[b0 b1] c] ts IH]; [reflexivity|].
  simpl. rewrite IH. lia.
Qed.

Lemma skipn_flat_triplets (ts : list (Z * Z * Z)) (tail : list Z) :
  skipn (3 * List.length ts) (flat_map triplet_bytes ts ++ tail) = tail.
Proof.
  rewrite skipn_app, <- length_flat_triplets, skipn_all, Nat.sub_diag. reflexivity.
Qed.

(** After valid triplets, a complete triplet with a wrong checksum stops
    the decoding with the checksum assertion, whatever follows. *)
Lemma decode_fails_after_valid_prefix (trips : list (Z * Z * Z)) (b0 b1 c : Z)
  (rest : list Z) (count : nat) :
  Forall triplet_valid trips -> c <> _crc [b0; b1] -> (List.length trips < count)%nat ->
  _read_checksummed_words (flat_map triplet_bytes trips ++ [b0; b1; c] ++ rest) count
  = Err (AssertionError "Bad checksum!").
Proof.
  intros Hv Hc Hlt.
  replace count with (List.length trips + S (count - S (List.length trips)))%nat by lia.
  unfold _read_checksummed_words.
  rewrite (read_loop_prefix trips Hv _ 0 _ [] ([b0; b1; c] ++ rest)) by reflexivity.
  cbn [Nat.add read_words_loop].
  rewrite (read_word_at _ ((2 + 1) * List.length trips) b0 b1 c rest)
    by apply skipn_flat_triplets.
  apply Z.eqb_neq in Hc. rewrite Hc. reflexivity.
Qed.

Lemma flip_bit_middle (pre : list Z) (h l c : Z) (post : list Z) (b : Z) :
  flip_bit (pre ++ [h; l; c] ++ post) (List.length pre + 2) b
  = pre ++ [h; l; Z.lxor c (Z.shiftl 1 b)] ++ post.
Proof.
  unfold flip_bit.
  rewrite firstn_app, firstn_all2 by lia.
  replace (List.length pre + 2 - List.length pre)%nat with 2%nat by lia.
  rewrite app_nth2 by lia.
  replace (List.length pre + 2 - List.length pre)%nat with 2%nat by lia.
  rewrite skipn_app, skipn_all2 by lia.
  replace (S (List.length pre + 2) - List.length pre)%nat with 3%nat by lia.
  simpl. rewrite <- app_assoc. reflexivity.
Qed.

Lemma lxor_shiftl_neq (c b : Z) : 0 <= b -> Z.lxor c (Z.shiftl 1 b) <> c.
Proof.
  intros Hb H.
  assert (T := f_equal (fun x => Z.testbit x b) H). cbv beta in T.
  rewrite Z.lxor_spec, Z.shiftl_1_l, Z.pow2_bits_true in T by exact Hb.
  destruct (Z.testbit c b); discriminate T.
Qed.


(** The bytes a device sends for 16-bit words decode back to them. *)
Lemma decode_of_encoding (W : list Z) :
  Forall word_in_range W ->
  _read_checksummed_words (flat_map triplet_bytes (map triplet_of_word W)) (List.length W)
  = Ok W.
Proof.
  intros HW. unfold _read_checksummed_words.
  rewrite <- (Nat.add_0_r (List.length W)), <- (length_map triplet_of_word W).
  rewrite (read_loop_prefix _ (triplets_of_words_valid W) _ 0 0 [] [])
    by (rewrite app_nil_r; reflexivity).
  simpl. rewrite map_triplet_word_of_words by exact HW. reflexivity.
Qed.

(** The encoder stops at its first word: [struct.pack] raises on a value
    out of range, and otherwise [_crc] raises on the packed [str]. *)
Lemma encode_first_word (W : list Z) :
  _bytes_for_checksummed_words W =
  match W with [] => Ok [] | w :: _ => Err (first_word_error w) end.
Proof.
  destruct W as [|w rest]; [reflexivity|].
  unfold _bytes_for_checksummed_words, first_word_error.
  cbn [bytes_for_words_loop]. unfold struct_pack_H.
  destruct ((0 <=? w) && (w <=? 65535)); reflexivity.
Qed.

Lemma first_word_error_in_range (w : Z) :
  word_in_range w -> first_word_error w = TypeError.
Proof.
  unfold word_in_range, first_word_error; intros [H0 H1].
  apply Z.leb_le in H0; apply Z.leb_le in H1. rewrite H0, H1. reflexivity.
Qed.

Lemma first_word_error_out_of_range (w : Z) :
  ~ word_in_range w -> first_word_error w = StructError.
Proof.
  unfold word_in_range, first_word_error; intros H.
  destruct (Z.leb_spec 0 w), (Z.leb_spec w 65535); try reflexivity; lia.
Qed.


(** * Claims *)

(** ** Checksum *)

(** C1: [_crc] computes the CRC-8 of the specification (initial value
    [0xFF]; per byte: XOR it in, then eight shift steps that XOR in the
    polynomial [0x31] when bit 7 is set, keeping eight bits), and
    [_crc [0xBE; 0xEF] = 0x92]. *)
Theorem crc_is_spec_crc8 (data : list Z) :
  _crc data = crc_spec data /\ _crc [190; 239] = 146.
Proof.
  split; [|reflexivity].
  unfold _crc, crc_spec. rewrite crc_loop_low8. reflexivity.
Qed.

(** C10: the source keeps the accumulator unbounded and masks it to eight
    bits once, at the end; masking after every shift instead gives the
    same low eight bits, from any starting accumulator and for every byte
    sequence. *)
Theorem crc_mask_once_eq_mask_each_shift (acc : Z) (data : list Z) :
  Z.land (crc_loop acc data) 255 = crc_spec_loop (Z.land acc 255) data.
Proof. apply crc_loop_low8. Qed.

(** ** Word codec *)

(** C2 (the code does not meet the law): under Python 2,
    [_bytes_for_checksummed_words] raises [TypeError] on every non-empty
    list of 16-bit values ([struct.pack] returns a [str], and [_crc]
    cannot XOR its characters into the accumulator), so it returns no
    encoding to decode.  The bytes the law describes, each word's two
    big-endian bytes followed by their CRC ([encoded W]), are [3 * len W]
    long and [_read_checksummed_words] decodes them back to [W]. *)
Theorem encoder_raises_on_valid_words (W : list Z) :
  W <> [] -> Forall word_in_range W ->
  _bytes_for_checksummed_words W = Err TypeError
  /\ List.length (encoded W) = (3 * List.length W)%nat
  /\ _read_checksummed_words (encoded W) (List.length W) = Ok W.
Proof.
  intros Hne HW. split; [|split].
  - rewrite encode_first_word. destruct W as [|w rest]; [congruence|].
    inversion HW as [|? ? Hw]; subst. rewrite first_word_error_in_range by exact Hw.
    reflexivity.
  - unfold encoded. rewrite length_flat_triplets, length_map. reflexivity.
  - unfold encoded. apply decode_of_encoding, HW.
Qed.

Lemma encoder_raises_on_valid_words_witness :
  _bytes_for_checksummed_words [48879; 1] = Err TypeError
  /\ List.length (encoded [48879; 1]) = 6%nat
  /\ _read_checksummed_words (encoded [48879; 1]) 2 = Ok [48879; 1].
Proof.
  apply (encoder_raises_on_valid_words [48879; 1]).
  - discriminate.
  - repeat constructor; unfold word_in_range; lia.
Defined.

(** C8 (the code does not meet the claim): [_bytes_for_checksummed_words]
    fails on every non-empty list, so in particular on every list holding a
    value above [0xFFFF]; but it also fails on every non-empty list of
    values in range.  It stops at the first word: [struct.error] when that
    word is out of [0 .. 0xFFFF], [TypeError] (from [_crc] on the packed
    [str]) when it is in range.  Only the empty list is encoded. *)
Theorem encoder_fails_on_every_nonempty_list :
  (forall W : list Z, Exists (fun w => 65535 < w) W ->
     exists e, _bytes_for_checksummed_words W = Err e)
  /\ (forall (w : Z) (ws : list Z), word_in_range w ->
        _bytes_for_checksummed_words (w :: ws) = Err TypeError)
  /\ (forall (w : Z) (ws : list Z), ~ word_in_range w ->
        _bytes_for_checksummed_words (w :: ws) = Err StructError)
  /\ _bytes_for_checksummed_words [] = Ok [].
Proof.
  split; [|split; [|split]].
  - intros W H. rewrite encode_first_word.
    destruct W as [|w rest]; [inversion H|]. eexists. reflexivity.
  - intros w ws Hw. rewrite encode_first_word, first_word_error_in_range by exact Hw.
    reflexivity.
  - intros w ws Hw. rewrite encode_first_word, first_word_error_out_of_range by exact Hw.
    reflexivity.
  - reflexivity.
Qed.

Lemma encoder_fails_on_every_nonempty_list_witness :
  (exists e, _bytes_for_checksummed_words [1; 70000] = Err e)
  /\ _bytes_for_checksummed_words [1; 2] = Err TypeError
  /\ _bytes_for_checksummed_words [70000; 2] = Err StructError.
Proof.
  destruct encoder_fails_on_every_nonempty_list as [P1 [P2 [P3 _]]].
  split; [apply P1, Exists_cons_tl, Exists_cons_hd; lia|].
  split; [apply P2; unfold word_in_range; lia|].
  apply P3; unfold word_in_range; lia.
Defined.

(** C3 (as the code does it): triplets are checked in order; after
    triplets with correct checksums, the first complete triplet whose
    stored checksum differs from the recomputed one makes
    [_read_checksummed_words] fail with the assertion [Bad checksum!],
    whatever bytes follow it (they are not interpreted).  The error is the
    same value for every failing triplet: it does not carry the index.
    In particular, flipping any bit of the checksum byte of any word of a
    checksummed encoding ([encoded]: per word, its two big-endian bytes
    and their CRC) makes the decoding of those bytes fail in this way. *)
Theorem decode_stops_at_first_bad_triplet :
  (forall (trips : list (Z * Z * Z)) (b0 b1 c : Z) (rest : list Z) (count : nat),
     Forall triplet_valid trips -> c <> _crc [b0; b1] -> (List.length trips < count)%nat ->
     _read_checksummed_words (flat_map triplet_bytes trips ++ [b0; b1; c] ++ rest) count
     = Err (AssertionError "Bad checksum!"))
  /\
  (forall (W : list Z) (k : nat) (b : Z),
     Forall word_in_range W ->
     (k < List.length W)%nat -> 0 <= b < 8 ->
     _read_checksummed_words (flip_bit (encoded W) (3 * k + 2) b) (List.length W)
     = Err (AssertionError "Bad checksum!")).
Proof.
  split; [exact decode_fails_after_valid_prefix|].
  intros W k b HW Hk Hb. unfold encoded.
  destruct (nth_error W k) as [w|] eqn:Hn;
    [|apply nth_error_None in Hn; lia].
  pose proof (firstn_skipn_middle k W Hn) as HWeq.
  assert (Hlen1 : List.length (firstn k W) = k) by (rewrite length_firstn; lia).
  rewrite <- HWeq at 1.
  rewrite map_app, flat_map_app. cbn [map flat_map].
  replace (3 * k + 2)%nat
    with (List.length (flat_map triplet_bytes (map triplet_of_word (firstn k W))) + 2)%nat
    by (rewrite length_flat_triplets, length_map; lia).
  change (triplet_bytes (triplet_of_word w))
    with [Z.shiftr w 8; Z.land w 255; _crc [Z.shiftr w 8; Z.land w 255]].
  rewrite (flip_bit_middle _ _ _ _ _ b).
  apply decode_fails_after_valid_prefix.
  - apply triplets_of_words_valid.
  - apply lxor_shiftl_neq. lia.
  - rewrite length_map. lia.
Qed.

Lemma decode_stops_at_first_bad_triplet_witness :
  _read_checksummed_words [190; 239; 146; 0; 1; 0; 0; 0; 0] 3
    = Err (AssertionError "Bad checksum!")
  /\ _read_checksummed_words (flip_bit [190; 239; 146; 0; 1; 176] 5 3) 2
    = Err (AssertionError "Bad checksum!").
Proof.
  split.
  - apply (proj1 decode_stops_at_first_bad_triplet
             [(190, 239, 146)] 0 1 0 [0; 0; 0] 3%nat).
    + constructor; [reflexivity | constructor].
    + vm_compute. discriminate.
    + simpl. lia.
  - apply (proj2 decode_stops_at_first_bad_triplet [48879; 1] 1%nat 3).
    + repeat constructor; unfold word_in_range; lia.
    + simpl. lia.
    + lia.
Defined.

(** C3, the index: two buffers failing at triplet 0 and at triplet 1
    raise the same error, so no function of the error recovers the
    index. *)
Lemma decode_error_carries_no_index :
  ~ (exists index_of : PyError -> nat,
       (forall e, _read_checksummed_words [190; 239; 0; 190; 239; 146] 2 = Err e ->
                  index_of e = 0%nat) /\
       (forall e, _read_checksummed_words [190; 239; 146; 190; 239; 0] 2 = Err e ->
                  index_of e = 1%nat)).
Proof.
  intros [index_of [H0 H1]].
  specialize (H0 (AssertionError "Bad checksum!") eq_refl).
  specialize (H1 (AssertionError "Bad checksum!") eq_refl).
  congruence.
Qed.

(** ** Command execution *)

(** C4: when a command requires a feature set and the chip version
    negotiated by [open] (the raw feature set masked with bits 5-7) differs
    from the masked requirement, [_run_command] fails with the assertion
    [Unsupported chip version for this command] and issues no bus event. *)
Theorem capability_gate_before_bus (s : SGP30) (tr : Transport) (cmd : SGP30Command)
  (param_bytes : option (list Z)) (raw r : Z) (trace : list BusEvent) :
  required_feature_set cmd = Some r ->
  chip_version s = Some (Z.land raw _SGP30_FEATURE_SET_BITMASK) ->
  Z.land raw _SGP30_FEATURE_SET_BITMASK <> Z.land r _SGP30_FEATURE_SET_BITMASK ->
  _run_command s tr cmd param_bytes trace
  = (Err (AssertionError "Unsupported chip version for this command"), trace).
Proof.
  intros Hr Hcv Hne. unfold _run_command, bindM, lift, py_assert, _has_feature_set.
  rewrite Hr, Hcv. apply Z.eqb_neq in Hne. rewrite Hne. reflexivity.
Qed.

Lemma capability_gate_before_bus_witness :
  _run_command (with_feature_set (new_SGP30 1 88) 64) test_transport
    (mkSGP30Command [32; 8] (Some 32) 0 6 12) None []
  = (Err (AssertionError "Unsupported chip version for this command"), []).
Proof.
  apply (capability_gate_before_bus _ _ _ _ 64 32); [reflexivity | reflexivity |].
  vm_compute. discriminate.
Defined.




(** ** Session lifecycle *)




(** ** Command table and readings *)

(** C7: [_SGP30_CMDS] holds exactly the eight commands of the table, with
    these opcodes, feature-set requirements (only the last six), parameter
    and response sizes (in checksummed words) and response times; every
    size is a whole number of words and no command both takes parameters
    and returns a response. *)
Theorem command_table_values :
  map fst _SGP30_CMDS =
    ["get_serial_number"; "get_feature_set_version"; "init_air_quality";
     "measure_air_quality"; "get_baseline"; "set_baseline"; "set_humidity";
     "measure_raw_signals"]%string
  /\ NoDup (map fst _SGP30_CMDS)
  /\ map (fun nc => cmd_row (snd nc)) _SGP30_CMDS =
    [(13954, false, 0%nat, 3%nat, 1);    (* 0x3682 *)
     (8239, false, 0%nat, 1%nat, 2);     (* 0x202f *)
     (8195, true, 0%nat, 0%nat, 10);     (* 0x2003 *)
     (8200, true, 0%nat, 2%nat, 12);     (* 0x2008 *)
     (8213, true, 0%nat, 2%nat, 10);     (* 0x2015 *)
     (8222, true, 2%nat, 0%nat, 10);     (* 0x201e *)
     (8289, true, 1%nat, 0%nat, 10);     (* 0x2061 *)
     (8272, true, 0%nat, 2%nat, 25)]     (* 0x2050 *)
  /\ Forall (fun nc => (parameter_length (snd nc) mod 3 = 0)%nat
                       /\ (response_length (snd nc) mod 3 = 0)%nat
                       /\ (parameter_length (snd nc) = 0%nat
                           \/ response_length (snd nc) = 0%nat)) _SGP30_CMDS.
Proof.
  split; [reflexivity|].
  split; [|split; [reflexivity|]].
  - repeat constructor; simpl; intros H;
      repeat (destruct H as [H|H]; [discriminate H|]); exact H.
  - repeat constructor; simpl; lia.
Qed.

(** C9: [is_probably_valid] is false exactly on the power-on default
    [(400, 0)]; in particular it is false on [(400, 0)] and true on
    [(450, 12)]. *)
Theorem is_probably_valid_spec :
  (forall a : AirQuality,
     is_probably_valid a = false <-> co2_ppm a = 400 /\ voc_ppb a = 0)
  /\ is_probably_valid (mkAirQuality 400 0) = false
  /\ is_probably_valid (mkAirQuality 450 12) = true.
Proof.
  split; [|split; reflexivity].
  intros [co2 voc]. unfold is_probably_valid; simpl.
  destruct (Z.eqb_spec co2 400), (Z.eqb_spec voc 0); simpl;
    split; intros H; try discriminate H; try tauto; reflexivity.
Qed.

(** * Further properties of the code *)

(** ** One bus transaction *)

(** A command that passes the feature-set check and the parameter check
    performs exactly one write of its opcode followed by its parameter
    bytes; if the transport's write raises, that error is returned as is
    and nothing else happens; otherwise the driver sleeps for the command's
    response time and, only for a command with a response, reads exactly
    [response_length] bytes and returns the transport's answer (or its
    error) unchanged. *)
Theorem run_command_transaction (s : SGP30) (tr : Transport) (cmd : SGP30Command)
  (param_bytes : option (list Z)) (payload : list Z) (op0 : Z) (ops : list Z)
  (trace : list BusEvent) :
  _has_feature_set s (required_feature_set cmd) = true ->
  opcode_bytes cmd = op0 :: ops ->
  (parameter_length cmd = 0%nat /\ payload = []) \/
  ((0 < parameter_length cmd)%nat /\ param_bytes = Some payload
   /\ List.length payload = parameter_length cmd) ->
  _run_command s tr cmd param_bytes trace =
  let w := EvWrite (i2c_address s) op0 (ops ++ payload) in
  match tr_write tr (bus_open s) (i2c_address s) op0 (ops ++ payload) with
  | Err e => (Err e, trace ++ [w])
  | Ok _ =>
      if (0 <? response_length cmd)%nat then
        let evs := [w; EvSleep (response_time_ms cmd);
                    EvRead (i2c_address s) (response_length cmd)] in
        match tr_read tr (bus_open s) (i2c_address s) (response_length cmd) with
        | Ok raw => (Ok (Some raw), trace ++ evs)
        | Err e => (Err e, trace ++ evs)
        end
      else (Ok None, trace ++ [w; EvSleep (response_time_ms cmd)])
  end.
Proof.
  intros Hcap Hop Hp. unfold _run_command, bindM, lift, py_assert at 1.
  rewrite Hcap.
  destruct Hp as [[H0 ->] | [Hpos [-> Hlen]]].
  - rewrite H0. cbn [Nat.ltb Nat.leb ret]. rewrite Hop, app_nil_r.
    unfold __write_bytes, bindM, emit, lift.
    destruct (tr_write tr (bus_open s) (i2c_address s) op0 ops); [|reflexivity].
    unfold emit, ret. destruct (response_length cmd) as [|n]; cbn [Nat.ltb Nat.leb];
      [cbv beta; rewrite <- app_assoc; reflexivity|].
    unfold __read_bytes, bindM, emit, lift. cbv beta.
    destruct (tr_read _ _ _ _); rewrite <- !app_assoc; reflexivity.
  - apply Nat.ltb_lt in Hpos. rewrite Hpos.
    unfold py_assert. apply Nat.eqb_eq in Hlen. rewrite Hlen. cbn [ret].
    rewrite Hop. cbn [app].
    unfold __write_bytes, bindM, emit, lift.
    destruct (tr_write tr (bus_open s) (i2c_address s) op0 (ops ++ payload)); [|reflexivity].
    unfold emit, ret. destruct (response_length cmd) as [|n]; cbn [Nat.ltb Nat.leb];
      [cbv beta; rewrite <- app_assoc; reflexivity|].
    unfold __read_bytes, bindM, emit, lift. cbv beta.
    destruct (tr_read _ _ _ _); rewrite <- !app_assoc; reflexivity.
Qed.

(** ** Checksum and word codec *)

(** [_crc] always returns a byte. *)
Theorem crc_is_byte (data : list Z) : 0 <= _crc data < 256.
Proof.
  unfold _crc. change 255 with (Z.ones 8). rewrite Z.land_ones by lia.
  apply Z.mod_pos_bound. reflexivity.
Qed.

Lemma read_words_loop_length (data : list Z) (n : nat) :
  forall (i : nat) (res ws : list Z),
  read_words_loop data i n res = Ok ws -> List.length ws = (List.length res + n)%nat.
Proof.
  induction n as [|n IH]; intros i res ws H; cbn [read_words_loop] in H.
  - injection H as <-. lia.
  - destruct (_read_checksummed_word data ((2 + 1) * i)) as [w|e]; [|discriminate].
    cbn [bind] in H. apply IH in H. rewrite length_app in H. simpl in H. lia.
Qed.

(** A successful decode returns exactly [count] words. *)
Theorem decode_length (data : list Z) (count : nat) (ws : list Z) :
  _read_checksummed_words data count = Ok ws -> List.length ws = count.
Proof. intros H. apply read_words_loop_length in H. exact H. Qed.

Lemma decode_length_witness :
  _read_checksummed_words [190; 239; 146; 0; 1; 176] 2 = Ok [48879; 1]
  /\ List.length [48879; 1] = 2%nat.
Proof.
  split; [reflexivity|]. apply (decode_length [190; 239; 146; 0; 1; 176]). reflexivity.
Defined.

Lemma read_words_loop_extends (data : list Z) (n : nat) :
  forall (i : nat) (res ws : list Z),
  read_words_loop data i n res = Ok ws -> exists rest, ws = res ++ rest.
Proof.
  induction n as [|n IH]; intros i res ws H; cbn [read_words_loop] in H.
  - injection H as <-. exists []. rewrite app_nil_r. reflexivity.
  - destruct (_read_checksummed_word data ((2 + 1) * i)) as [w|e]; [|discriminate].
    cbn [bind] in H. apply IH in H. destruct H as [rest ->].
    exists (w :: rest). rewrite <- app_assoc. reflexivity.
Qed.

Lemma read_words_loop_prefix (data : list Z) (n : nat) :
  forall (i m : nat) (res ws : list Z),
  read_words_loop data i n res = Ok ws -> (m <= n)%nat ->
  read_words_loop data i m res = Ok (firstn (List.length res + m) ws).
Proof.
  induction n as [|n IH]; intros i m res ws H Hm.
  - assert (m = 0%nat) as -> by lia. cbn [read_words_loop] in *. injection H as <-.
    rewrite Nat.add_0_r, firstn_all. reflexivity.
  - destruct m as [|m].
    + cbn [read_words_loop]. rewrite Nat.add_0_r.
      destruct (read_words_loop_extends _ _ _ _ _ H) as [rest ->].
      rewrite firstn_app, Nat.sub_diag, firstn_all. simpl. rewrite app_nil_r. reflexivity.
    + cbn [read_words_loop] in H |- *.
      destruct (_read_checksummed_word data ((2 + 1) * i)) as [w|e]; [|discriminate].
      cbn [bind] in H |- *. rewrite (IH (S i) m (res ++ [w]) ws H) by lia.
      rewrite length_app. simpl. f_equal. f_equal. lia.
Qed.

(** Decoding fewer words from the same buffer succeeds and gives the
    first words of the longer decode. *)
Theorem decode_prefix (data : list Z) (n m : nat) (ws : list Z) :
  _read_checksummed_words data n = Ok ws -> (m <= n)%nat ->
  _read_checksummed_words data m = Ok (firstn m ws).
Proof.
  intros H Hm. unfold _read_checksummed_words in *.
  exact (read_words_loop_prefix data n 0 m [] ws H Hm).
Qed.

Lemma decode_prefix_witness :
  _read_checksummed_words [190; 239; 146; 0; 1; 176] 1 = Ok [48879].
Proof.
  apply (decode_prefix _ 2 1 [48879; 1]); [reflexivity | lia].
Defined.

Lemma read_word_firstn (data : list Z) (off L : nat) :
  (off + 3 <= L)%nat ->
  _read_checksummed_word (firstn L data) off = _read_checksummed_word data off.
Proof.
  intros H. unfold _read_checksummed_word. rewrite skipn_firstn_comm.
  replace (L - off)%nat with (S (S (S (L - off - 3))))%nat by lia.
  destruct (skipn off data) as [|a [|b [|c r]]]; reflexivity.
Qed.

Lemma read_words_loop_firstn (data : list Z) (n : nat) :
  forall (i L : nat) (res : list Z), (3 * (i + n) <= L)%nat ->
  read_words_loop (firstn L data) i n res = read_words_loop data i n res.
Proof.
  induction n as [|n IH]; intros i L res H; cbn [read_words_loop]; [reflexivity|].
  rewrite read_word_firstn by lia.
  destruct (_read_checksummed_word data ((2 + 1) * i)); cbn [bind]; [|reflexivity].
  apply IH. lia.
Qed.

(** Decoding [count] words reads nothing past the first [3 * count]
    bytes: trailing bytes never change the outcome. *)
Theorem decode_reads_only_prefix (data : list Z) (count : nat) :
  _read_checksummed_words (firstn (3 * count) data) count = _read_checksummed_words data count.
Proof. apply read_words_loop_firstn. lia. Qed.

Lemma read_word_ok_bound (data : list Z) (off : nat) (w : Z) :
  _read_checksummed_word data off = Ok w -> (off + 3 <= List.length data)%nat.
Proof.
  unfold _read_checksummed_word. intros H.
  assert (Hl : (3 <= List.length (skipn off data))%nat).
  { destruct (skipn off data) as [|a [|b [|c r]]]; try discriminate H. simpl. lia. }
  rewrite length_skipn in Hl. lia.
Qed.

Lemma read_words_loop_ok_bound (data : list Z) (n : nat) :
  forall (i : nat) (res ws : list Z),
  read_words_loop data i n res = Ok ws ->
  n = 0%nat \/ (3 * (i + n) <= List.length data)%nat.
Proof.
  induction n as [|n IH]; intros i res ws H; [left; reflexivity|right].
  cbn [read_words_loop] in H.
  destruct (_read_checksummed_word data ((2 + 1) * i)) as [w|e] eqn:Hw; [|discriminate].
  cbn [bind] in H. apply read_word_ok_bound in Hw.
  destruct (IH _ _ _ H) as [->|Hb]; lia.
Qed.

(** A successful decode of [count] words had at least [3 * count] bytes:
    a shorter buffer always fails. *)
Theorem decode_ok_needs_bytes (data : list Z) (count : nat) (ws : list Z) :
  _read_checksummed_words data count = Ok ws -> (3 * count <= List.length data)%nat.
Proof.
  intros H. destruct (read_words_loop_ok_bound _ _ _ _ _ H); lia.
Qed.

Lemma decode_ok_needs_bytes_witness :
  _read_checksummed_words [190; 239; 146] 1 = Ok [48879] /\ (3 <= 3)%nat.
Proof.
  split; [reflexivity|]. exact (decode_ok_needs_bytes [190; 239; 146] 1 [48879] eq_refl).
Defined.

Lemma read_word_in_range (data : list Z) (off : nat) (w : Z) :
  Forall is_byte data -> _read_checksummed_word data off = Ok w -> word_in_range w.
Proof.
  intros Hb H. unfold _read_checksummed_word in H.
  assert (Hs : Forall is_byte (skipn off data)).
  { rewrite <- (firstn_skipn off data) in Hb. apply Forall_app in Hb. apply Hb. }
  destruct (skipn off data) as [|b0 [|b1 [|c r]]]; try discriminate H.
  unfold py_assert in H. destruct (c =? _)%Z; [|discriminate]. cbn [bind] in H.
  injection H as <-. inversion Hs as [|? ? H0 Hs1]; subst.
  inversion Hs1 as [|? ? H1 _]; subst. unfold is_byte, word_in_range in *. lia.
Qed.

Lemma read_words_loop_in_range (data : list Z) (n : nat) :
  Forall is_byte data ->
  forall (i : nat) (res ws : list Z),
  Forall word_in_range res -> read_words_loop data i n res = Ok ws ->
  Forall word_in_range ws.
Proof.
  intros Hb. induction n as [|n IH]; intros i res ws Hr H; cbn [read_words_loop] in H.
  - injection H as <-. exact Hr.
  - destruct (_read_checksummed_word data ((2 + 1) * i)) as [w|e] eqn:Hw; [|discriminate].
    cbn [bind] in H. refine (IH _ _ _ _ H). apply Forall_app. split; [exact Hr|].
    constructor; [exact (read_word_in_range _ _ _ Hb Hw) | constructor].
Qed.

(** From a buffer of bytes, every decoded word is a 16-bit value. *)
Theorem decode_words_in_range (data : list Z) (count : nat) (ws : list Z) :
  Forall is_byte data -> _read_checksummed_words data count = Ok ws ->
  Forall word_in_range ws.
Proof.
  intros Hb H. exact (read_words_loop_in_range data count Hb 0 [] ws (Forall_nil _) H).
Qed.

Lemma decode_words_in_range_witness : Forall word_in_range [48879; 1].
Proof.
  apply (decode_words_in_range [190; 239; 146; 0; 1; 176] 2).
  - repeat constructor; unfold is_byte; lia.
  - reflexivity.
Defined.

(** ** Getters, setters and the session *)

Lemma run_word_getter_reply (s : SGP30) (tr : Transport) (name : string)
  (cmd : SGP30Command) (op0 : Z) (ops : list Z) (trace : list BusEvent) :
  lookup_cmd name _SGP30_CMDS = Some cmd ->
  parameter_length cmd = 0%nat -> (response_length cmd mod 3 = 0)%nat ->
  (0 < response_length cmd)%nat ->
  _has_feature_set s (required_feature_set cmd) = true ->
  opcode_bytes cmd = op0 :: ops ->
  tr_write tr (bus_open s) (i2c_address s) op0 ops = Ok tt ->
  _run_word_getter s tr name trace =
  let evs := [EvWrite (i2c_address s) op0 ops; EvSleep (response_time_ms cmd);
              EvRead (i2c_address s) (response_length cmd)] in
  match tr_read tr (bus_open s) (i2c_address s) (response_length cmd) with
  | Ok raw => (_read_checksummed_words raw (response_length cmd / 3), trace ++ evs)
  | Err e => (Err e, trace ++ evs)
  end.
Proof.
  intros Hl Hp Hm Hr Hcap Hop Hw.
  unfold _run_word_getter, get_cmd. rewrite Hl.
  unfold bindM at 1, ret, lift at 1, py_assert at 1. rewrite Hp. cbn [Nat.eqb].
  unfold bindM at 1, lift at 1, py_assert at 1. rewrite Hm. cbn [Nat.eqb].
  unfold bindM.
  rewrite (run_command_transaction s tr cmd None [] op0 ops trace Hcap Hop
             (or_introl (conj Hp eq_refl))).
  rewrite app_nil_r, Hw. cbv zeta.
  apply Nat.ltb_lt in Hr. rewrite Hr.
  destruct (tr_read _ _ _ _); unfold lift; reflexivity.
Qed.

(** [measure_air_quality] on a session whose chip version is [0x20]: one
    write of [0x20 0x08], a 12 ms sleep and a read of 6 bytes; a reply
    made of two correctly checksummed words gives the reading of those two
    words. *)
Theorem measure_air_quality_reads_reply (s : SGP30) (tr : Transport)
  (co2 voc : Z) (trace : list BusEvent) :
  chip_version s = Some 32 -> word_in_range co2 -> word_in_range voc ->
  tr_write tr (bus_open s) (i2c_address s) 32 [8] = Ok tt ->
  tr_read tr (bus_open s) (i2c_address s) 6
    = Ok (flat_map triplet_bytes (map triplet_of_word [co2; voc])) ->
  measure_air_quality s tr trace =
  (Ok (mkAirQuality co2 voc),
   trace ++ [EvWrite (i2c_address s) 32 [8]; EvSleep 12; EvRead (i2c_address s) 6]).
Proof.
  intros Hcv Hc Hv Hw Hr. unfold measure_air_quality, bindM at 1.
  rewrite (run_word_getter_reply s tr "measure_air_quality" _ 32 [8] trace eq_refl
             eq_refl eq_refl ltac:(simpl; lia)
             ltac:(unfold _has_feature_set; rewrite Hcv; reflexivity) eq_refl Hw).
  cbn [response_length response_time_ms]. rewrite Hr.
  change (6 / 3)%nat with (List.length [co2; voc]).
  rewrite decode_of_encoding by (constructor; [exact Hc | constructor; [exact Hv | constructor]]).
  reflexivity.
Qed.

Lemma measure_air_quality_reads_reply_witness :
  measure_air_quality (with_feature_set (new_SGP30 1 88) 32) test_transport []
  = (Ok (mkAirQuality 450 12), [EvWrite 88 32 [8]; EvSleep 12; EvRead 88 6]).
Proof.
  apply measure_air_quality_reads_reply; [reflexivity | unfold word_in_range; lia
    | unfold word_in_range; lia | reflexivity | reflexivity].
Defined.

(** When the first word of the reply to [measure_air_quality] carries a
    wrong checksum, the call fails with [Bad checksum!] after the whole
    transaction (write, sleep, read) has taken place. *)
Theorem measure_air_quality_bad_checksum (s : SGP30) (tr : Transport)
  (b0 b1 c : Z) (rest : list Z) (trace : list BusEvent) :
  chip_version s = Some 32 ->
  tr_write tr (bus_open s) (i2c_address s) 32 [8] = Ok tt ->
  tr_read tr (bus_open s) (i2c_address s) 6 = Ok ([b0; b1; c] ++ rest) ->
  c <> _crc [b0; b1] ->
  measure_air_quality s tr trace =
  (Err (AssertionError "Bad checksum!"),
   trace ++ [EvWrite (i2c_address s) 32 [8]; EvSleep 12; EvRead (i2c_address s) 6]).
Proof.
  intros Hcv Hw Hr Hc. unfold measure_air_quality, bindM at 1.
  rewrite (run_word_getter_reply s tr "measure_air_quality" _ 32 [8] trace eq_refl
             eq_refl eq_refl ltac:(simpl; lia)
             ltac:(unfold _has_feature_set; rewrite Hcv; reflexivity) eq_refl Hw).
  cbn [response_length response_time_ms]. rewrite Hr.
  rewrite (decode_fails_after_valid_prefix [] b0 b1 c rest) by (simpl; auto).
  reflexivity.
Qed.

Lemma measure_air_quality_bad_checksum_witness :
  measure_air_quality (with_feature_set (new_SGP30 1 88) 32)
    (mkTransport (fun _ => Ok tt) (fun _ _ _ _ => Ok tt) (fun _ _ _ => Ok [1; 2; 3; 4; 5; 6])) []
  = (Err (AssertionError "Bad checksum!"), [EvWrite 88 32 [8]; EvSleep 12; EvRead 88 6]).
Proof.
  apply (measure_air_quality_bad_checksum (with_feature_set (new_SGP30 1 88) 32)
           (mkTransport (fun _ => Ok tt) (fun _ _ _ _ => Ok tt) (fun _ _ _ => Ok [1; 2; 3; 4; 5; 6]))
           1 2 3 [4; 5; 6] []);
    [reflexivity | reflexivity | reflexivity | vm_compute; discriminate].
Defined.

(** A successful [_run_word_getter] on a command of the table returns
    exactly [response_length / 3] words. *)
Theorem run_word_getter_word_count (s : SGP30) (tr : Transport) (name : string)
  (cmd : SGP30Command) (trace trace' : list BusEvent) (ws : list Z) :
  lookup_cmd name _SGP30_CMDS = Some cmd ->
  _run_word_getter s tr name trace = (Ok ws, trace') ->
  List.length ws = (response_length cmd / 3)%nat.
Proof.
  intros Hl H. unfold _run_word_getter, get_cmd in H. rewrite Hl in H.
  unfold bindM, ret, lift, py_assert in H.
  destruct (parameter_length cmd =? 0)%nat; [|discriminate].
  destruct (response_length cmd mod 3 =? 0)%nat; [|discriminate].
  destruct (_run_command s tr cmd None trace) as [[[data|]|e] t1]; [| |discriminate].
  - injection H as H _. exact (decode_length _ _ _ H).
  - destruct (response_length cmd / 3 =? 0)%nat eqn:E; [|discriminate].
    injection H as <- _. apply Nat.eqb_eq in E. rewrite E. reflexivity.
Qed.

Lemma run_word_getter_word_count_witness :
  List.length [450; 12] = 2%nat.
Proof.
  exact (run_word_getter_word_count (with_feature_set (new_SGP30 1 88) 32) test_transport
           "measure_raw_signals" (mkSGP30Command [32; 80] (Some 32) 0 6 25) []
           [EvWrite 88 32 [80]; EvSleep 25; EvRead 88 6] [450; 12]
           eq_refl eq_refl).
Defined.

Section Open.
Variables (s : SGP30) (tr : Transport) (sn : list Z) (raw : Z).
Hypothesis Hopen : tr_open tr (i2c_bus_number s) = Ok tt.
Hypothesis Hwrite : forall c args, tr_write tr true (i2c_address s) c args = Ok tt.
Hypothesis Hsn : tr_read tr true (i2c_address s) 9
                 = Ok (flat_map triplet_bytes (map triplet_of_word sn)).
Hypothesis Hsn_range : Forall word_in_range sn.
Hypothesis Hsn_len : List.length sn = 3%nat.
Hypothesis Hraw : tr_read tr true (i2c_address s) 3
                  = Ok (flat_map triplet_bytes (map triplet_of_word [raw])).
Hypothesis Hraw_range : word_in_range raw.

Lemma open_until_init :
  open s tr =
  match _init_air_quality (opened_state s sn raw) tr (open_prefix_events (i2c_address s)) with
  | (Err e, t3) => (opened_state s sn raw, Err e, t3)
  | (Ok _, t3) => (opened_state s sn raw, Ok tt, t3)
  end.
Proof.
  unfold open. rewrite Hopen. unfold _get_serial_number.
  rewrite (run_word_getter_reply (with_bus_open s true) tr "get_serial_number" _ 54 [130]
             [] eq_refl eq_refl eq_refl ltac:(simpl; lia) eq_refl eq_refl
             (Hwrite _ _)).
  cbn [response_length response_time_ms bus_open with_bus_open i2c_address].
  rewrite Hsn. replace (9 / 3)%nat with (List.length sn) by (rewrite Hsn_len; reflexivity).
  rewrite decode_of_encoding by exact Hsn_range.
  unfold _get_feature_set_version, bindM at 1.
  rewrite (run_word_getter_reply (with_serial_number (with_bus_open s true) sn) tr
             "get_feature_set_version" _ 32 [47] _ eq_refl eq_refl eq_refl
             ltac:(simpl; lia) eq_refl eq_refl (Hwrite _ _)).
  cbn [response_length response_time_ms bus_open with_bus_open with_serial_number
       i2c_address].
  rewrite Hraw. change (3 / 3)%nat with (List.length [raw]).
  rewrite decode_of_encoding by (constructor; [exact Hraw_range | constructor]).
  reflexivity.
Qed.
End Open.

(** [open] with a device that answers every transaction: the serial number
    and feature set are stored, the bus stays open, and the bus sees exactly
    the three transactions of [get_serial_number], [get_feature_set_version]
    and [init_air_quality]. *)
Theorem open_success (s : SGP30) (tr : Transport) (sn : list Z) (raw : Z) :
  tr_open tr (i2c_bus_number s) = Ok tt ->
  (forall c args, tr_write tr true (i2c_address s) c args = Ok tt) ->
  tr_read tr true (i2c_address s) 9 = Ok (flat_map triplet_bytes (map triplet_of_word sn)) ->
  Forall word_in_range sn -> List.length sn = 3%nat ->
  tr_read tr true (i2c_address s) 3 = Ok (flat_map triplet_bytes (map triplet_of_word [raw])) ->
  word_in_range raw ->
  Z.land raw _SGP30_FEATURE_SET_BITMASK = 32 ->
  open s tr =
  (mkSGP30 (i2c_bus_number s) (i2c_address s) (Some raw) (Some 32) (Some sn) true,
   Ok tt,
   open_prefix_events (i2c_address s) ++ [EvWrite (i2c_address s) 32 [3]; EvSleep 10]).
Proof.
  intros Ho Hw Hsn Hsr Hsl Hraw Hrr Hchip.
  rewrite (open_until_init s tr sn raw Ho Hw Hsn Hsr Hsl Hraw Hrr).
  unfold _init_air_quality.
  change (get_cmd "init_air_quality") with (ret (mkSGP30Command [32; 3] (Some 32) 0 0 10)).
  cbn [bindM ret].
  rewrite (run_command_transaction (opened_state s sn raw) tr _ None [] 32 [3]); cycle 1.
  - unfold _has_feature_set, opened_state. cbn [chip_version]. rewrite Hchip. reflexivity.
  - reflexivity.
  - left. split; reflexivity.
  - cbn [opened_state i2c_address bus_open i2c_bus_number].
    rewrite Hw. cbn. unfold opened_state. rewrite Hchip. reflexivity.
Qed.

Lemma open_success_witness :
  open (new_SGP30 1 88) (transport_with_feature_set 32) =
  (mkSGP30 1 88 (Some 32) (Some 32) (Some [1; 2; 3]) true, Ok tt,
   open_prefix_events 88 ++ [EvWrite 88 32 [3]; EvSleep 10]).
Proof.
  refine (open_success (new_SGP30 1 88) (transport_with_feature_set 32) [1; 2; 3] 32
            eq_refl (fun _ _ => eq_refl) eq_refl _ eq_refl eq_refl _ eq_refl).
  - repeat constructor; unfold word_in_range; lia.
  - unfold word_in_range; lia.
Defined.

(** [open] against a chip whose masked feature set is not [0x20]: the
    serial number and feature set are still stored and the bus stays open,
    but [_init_air_quality] raises the chip-version assertion before
    writing anything, after the two getter transactions. *)
Theorem open_unsupported_chip (s : SGP30) (tr : Transport) (sn : list Z) (raw : Z) :
  tr_open tr (i2c_bus_number s) = Ok tt ->
  (forall c args, tr_write tr true (i2c_address s) c args = Ok tt) ->
  tr_read tr true (i2c_address s) 9 = Ok (flat_map triplet_bytes (map triplet_of_word sn)) ->
  Forall word_in_range sn -> List.length sn = 3%nat ->
  tr_read tr true (i2c_address s) 3 = Ok (flat_map triplet_bytes (map triplet_of_word [raw])) ->
  word_in_range raw ->
  Z.land raw _SGP30_FEATURE_SET_BITMASK <> 32 ->
  open s tr =
  (mkSGP30 (i2c_bus_number s) (i2c_address s) (Some raw)
           (Some (Z.land raw _SGP30_FEATURE_SET_BITMASK)) (Some sn) true,
   Err (AssertionError "Unsupported chip version for this command"),
   open_prefix_events (i2c_address s)).
Proof.
  intros Ho Hw Hsn Hsr Hsl Hraw Hrr Hchip.
  rewrite (open_until_init s tr sn raw Ho Hw Hsn Hsr Hsl Hraw Hrr).
  unfold _init_air_quality.
  change (get_cmd "init_air_quality") with (ret (mkSGP30Command [32; 3] (Some 32) 0 0 10)).
  cbn [bindM ret].
  unfold _run_command, bindM at 1, lift, py_assert, _has_feature_set, opened_state.
  cbn [chip_version required_feature_set].
  replace (Z.land raw _SGP30_FEATURE_SET_BITMASK =? Z.land 32 _SGP30_FEATURE_SET_BITMASK)
    with false by (symmetry; apply Z.eqb_neq; exact Hchip).
  reflexivity.
Qed.

Lemma open_unsupported_chip_witness :
  open (new_SGP30 1 88) (transport_with_feature_set 64) =
  (mkSGP30 1 88 (Some 64) (Some 64) (Some [1; 2; 3]) true,
   Err (AssertionError "Unsupported chip version for this command"),
   open_prefix_events 88).
Proof.
  refine (open_unsupported_chip (new_SGP30 1 88) (transport_with_feature_set 64) [1; 2; 3] 64
            eq_refl (fun _ _ => eq_refl) eq_refl _ eq_refl eq_refl _ _).
  - repeat constructor; unfold word_in_range; lia.
  - unfold word_in_range; lia.
  - vm_compute. discriminate.
Defined.

Lemma open_bus_state (s : SGP30) (tr : Transport) :
  match open s tr with
  | (s', Ok _, _) => bus_open s' = true
  | (s', Err e, t) =>
      match tr_open tr (i2c_bus_number s) with
      | Err e0 => e0 = e /\ bus_open s' = false /\ t = []
      | Ok _ => bus_open s' = true
      end
  end.
Proof.
  unfold open.
  destruct (tr_open tr (i2c_bus_number s)) as [u|e0] eqn:Ho; [|auto].
  destruct (_get_serial_number _ _ _) as [[sn|e] t1]; [|reflexivity].
  destruct (_get_feature_set_version _ _ _) as [[raw|e] t2]; [|reflexivity].
  destruct (_init_air_quality _ _ _) as [[x|e] t3]; reflexivity.
Qed.

(** [with SGP30(...) as sgp: body]: when [open] succeeds the body runs on
    the opened object, its outcome (value or exception) is the outcome of
    the block, and the bus is closed afterwards.  When [open] raises,
    [__exit__] is never called and the exception escapes: if opening the
    bus itself failed, the handle is not open and no bus event happened;
    if a later step of [open] failed, the bus handle is left open. *)
Theorem with_SGP30_outcome {A} (s : SGP30) (tr : Transport) (body : SGP30 -> M A) :
  let '(s', r, t') := with_SGP30 s tr body in
  (bus_open s' = false /\
   exists s1 t1, open s tr = (s1, Ok tt, t1) /\ body s1 t1 = (r, t') /\ s' = close s1)
  \/ (exists e, r = Err e /\ open s tr = (s', Err e, t')
       /\ match tr_open tr (i2c_bus_number s) with
          | Err e0 => e0 = e /\ bus_open s' = false /\ t' = []
          | Ok _ => bus_open s' = true
          end).
Proof.
  pose proof (open_bus_state s tr) as Hb.
  unfold with_SGP30.
  destruct (open s tr) as [[s1 [[]|e]] t1] eqn:Ho.
  - destruct (body s1 t1) as [r t'] eqn:Hbody. left. split; [reflexivity|].
    exists s1, t1. auto.
  - right. exists e. auto.
Qed.

Lemma run_command_transaction_witness :
  _run_command (with_feature_set (new_SGP30 1 88) 32) test_transport
    (mkSGP30Command [32; 8] (Some 32) 0 6 12) None []
  = (Ok (Some (encoded [450; 12])), [EvWrite 88 32 [8]; EvSleep 12; EvRead 88 6]).
Proof.
  rewrite (run_command_transaction (with_feature_set (new_SGP30 1 88) 32) test_transport
             (mkSGP30Command [32; 8] (Some 32) 0 6 12) None [] 32 [8] []
             eq_refl eq_refl (or_introl (conj eq_refl eq_refl))).
  reflexivity.
Defined.
